(** * GitPyFlow: the Flask application of [app/__init__.py]

    The program is one factory, [create_app], which builds a Flask
    application and registers two view functions on it:

    - [index], on the rule [/], returning a constant text;
    - [add], on the rule [/add/<int:num1>/<int:num2>], returning the two
      operands and their sum plus one, formatted by an f-string.

    The development has three layers.  [Python] gives the few pieces of
    the language the program uses (dynamic values, exceptions, integer
    addition, [str] of an integer, f-string formatting).  [Werkzeug] and
    [Flask] give the part of the framework the program goes through: rule
    strings, the [int] converter, matching a request path against the
    rules, calling the view and turning its result or its exception into a
    response.  [App] is the source file itself.

    Scope of the framework layer.  Requests are GET requests, given by the
    path of their URL as a string of plain characters.  Flask's built-in
    rule for static files ([/static/<path:filename>]), Werkzeug's redirect
    of paths with repeated slashes, routing on other HTTP methods and
    converter arguments in rule strings are not part of the model: a path
    they would decide is, here, a path that no rule matches.  Python
    integers are unbounded and are modelled by [Z]; [str] and [int] are
    total on them. *)

From Stdlib Require Import ZArith List String Ascii Bool Lia.
From Stdlib Require Import DecimalString DecimalZ DecimalPos.
Import ListNotations.

#[local] Open Scope string_scope.
#[local] Open Scope Z_scope.

(* ================================================================== *)
(** * The language layer *)
(* ================================================================== *)

Module Python.

(** Dynamically typed values: the program only ever meets [None], integers
    and strings. *)
Inductive value : Type :=
| PyNone
| PyInt (n : Z)
| PyStr (s : string).

(** Exceptions.  [HTTPException code] is the family of Werkzeug's HTTP
    errors ([NotFound] is code 404); the others are built-in. *)
Inductive exn : Type :=
| TypeError
| ValueError
| LookupError
| AssertionError
| HTTPException (code : nat).

Inductive result (A : Type) : Type :=
| Return (a : A)
| Raise (e : exn).
Arguments Return {A} a.
Arguments Raise {A} e.

(** The mutable state a Python function can reach besides its arguments:
    a table of named cells. *)
Definition globals : Type := list (string * value).

(** Computations: they may raise, and they may change the state. *)
Definition Py (A : Type) : Type := globals -> result A * globals.

Definition ret {A} (a : A) : Py A := fun g => (Return a, g).

Definition raise {A} (e : exn) : Py A := fun g => (Raise e, g).

Definition bind {A B} (c : Py A) (k : A -> Py B) : Py B :=
  fun g =>
    match c g with
    | (Return a, g') => k a g'
    | (Raise e, g') => (Raise e, g')
    end.

(** [try c except HTTPException ... except Exception ...] *)
Definition try_except {A} (c : Py A) (h : exn -> Py A) : Py A :=
  fun g =>
    match c g with
    | (Return a, g') => (Return a, g')
    | (Raise e, g') => h e g'
    end.

Declare Scope py_scope.
Delimit Scope py_scope with py.
Notation "x <- c ;; k" := (bind c (fun x => k))
  (at level 61, c at next level, right associativity) : py_scope.

(** [str(n)] for an integer: decimal digits, with a leading [-] when
    negative. *)
Definition str (n : Z) : string := NilZero.string_of_int (Z.to_int n).

(** [int(s)] on a non-empty string of decimal digits ([None] on any other
    string: the callers below only pass strings their regular expression
    has accepted). *)
Definition int_of_digits (s : string) : option Z :=
  option_map Z.of_uint (NilZero.uint_of_string s).

(** [format(v, "")], what an f-string replacement field [{v}] produces. *)
Definition format (v : value) : string :=
  match v with
  | PyNone => "None"
  | PyInt n => str n
  | PyStr s => s
  end.

(** The binary operator [+]. *)
Definition py_add (a b : value) : Py value :=
  match a, b with
  | PyInt x, PyInt y => ret (PyInt (x + y))
  | PyStr x, PyStr y => ret (PyStr (x ++ y))
  | _, _ => raise TypeError
  end.

(** [s.split(sep)] for a one-character separator. *)
Fixpoint split (sep : ascii) (s : string) : list string :=
  match s with
  | EmptyString => [EmptyString]
  | String c s' =>
      if Ascii.eqb c sep then EmptyString :: split sep s'
      else match split sep s' with
           | h :: t => String c h :: t
           | [] => [String c EmptyString]
           end
  end.

(** A function object: its name, its parameter names and its body, which
    receives the arguments in the order of the parameters. *)
Record function : Type := def {
  fn_name : string;
  fn_params : list string;
  fn_body : list value -> Py value
}.

Fixpoint lookup {A} (k : string) (l : list (string * A)) : option A :=
  match l with
  | [] => None
  | (k', a) :: l' => if String.eqb k k' then Some a else lookup k l'
  end.

Fixpoint bind_params (params : list string) (kwargs : list (string * value))
  : option (list value) :=
  match params with
  | [] => Some []
  | p :: ps =>
      match lookup p kwargs, bind_params ps kwargs with
      | Some v, Some vs => Some (v :: vs)
      | _, _ => None
      end
  end.

(** The call [f( **kwargs )]: a keyword that is no parameter, or a parameter
    without a keyword, is a [TypeError]. *)
Definition call (f : function) (kwargs : list (string * value)) : Py value :=
  if forallb (fun kv => existsb (String.eqb (fst kv)) (fn_params f)) kwargs
  then match bind_params (fn_params f) kwargs with
       | Some args => fn_body f args
       | None => raise TypeError
       end
  else raise TypeError.

End Python.

Import Python.
#[local] Open Scope py_scope.

(* ================================================================== *)
(** * The routing layer *)
(* ================================================================== *)

Module Werkzeug.

(** A converter takes one segment of the path and gives the Python value
    of the variable, or [None] when the segment does not match the
    converter's regular expression. *)
Definition converter : Type := string -> option value.

(** [IntegerConverter]: the regular expression is [\d+], or [-?\d+] when
    [signed]; the value is [int] of the segment. *)
Definition IntegerConverter (signed : bool) : converter :=
  fun seg =>
    match seg with
    | String "-" digits =>
        if signed
        then option_map (fun n => PyInt (- n)) (int_of_digits digits)
        else None
    | _ => option_map PyInt (int_of_digits seg)
    end.

(** [UnicodeConverter]: any non-empty segment, as a string. *)
Definition UnicodeConverter : converter :=
  fun seg =>
    match seg with
    | EmptyString => None
    | _ => Some (PyStr seg)
    end.

(** The converters a rule string can name: [int] is unsigned unless the
    rule asks for [signed=True].  (Werkzeug's table also has [any], [path],
    [float] and [uuid], which the program does not name.) *)
Definition DEFAULT_CONVERTERS : list (string * converter) :=
  [ ("default", UnicodeConverter);
    ("string", UnicodeConverter);
    ("int", IntegerConverter false) ].

(** One segment of a compiled rule. *)
Inductive part : Type :=
| Static (text : string)
| Dynamic (conv : converter) (name : string).

Record Rule : Type := mkRule {
  rule : string;
  parts : list part;
  endpoint : string
}.

(** The text between [<] and [>] of a variable segment, or [None] for a
    static segment. *)
Fixpoint strip_closing (s : string) : option string :=
  match s with
  | EmptyString => None
  | String ">" EmptyString => Some EmptyString
  | String c s' => option_map (String c) (strip_closing s')
  end.

Definition variable_of (seg : string) : option string :=
  match seg with
  | String "<" s => strip_closing s
  | _ => None
  end.

(** [<converter:name>] or [<name>]. *)
Definition compile_part (converters : list (string * converter)) (seg : string)
  : Py part :=
  match variable_of seg with
  | None => ret (Static seg)
  | Some v =>
      match split ":" v with
      | [name] =>
          match lookup "default" converters with
          | Some conv => ret (Dynamic conv name)
          | None => raise LookupError
          end
      | [cname; name] =>
          match lookup cname converters with
          | Some conv => ret (Dynamic conv name)
          | None => raise LookupError
          end
      | _ => raise ValueError
      end
  end.

Fixpoint compile_parts (converters : list (string * converter))
  (segs : list string) : Py (list part) :=
  match segs with
  | [] => ret []
  | seg :: segs' =>
      p <- compile_part converters seg ;;
      ps <- compile_parts converters segs' ;;
      ret (p :: ps)
  end.

(** A rule string must start with a slash. *)
Definition compile_rule (converters : list (string * converter))
  (rule : string) (endpoint : string) : Py Rule :=
  match rule with
  | String "/" _ =>
      ps <- compile_parts converters (split "/" rule) ;;
      ret (mkRule rule ps endpoint)
  | _ => raise ValueError
  end.

(** Matching the segments of a path against a compiled rule gives the
    values of the rule's variables. *)
Fixpoint match_parts (ps : list part) (segs : list string)
  : option (list (string * value)) :=
  match ps, segs with
  | [], [] => Some []
  | Static text :: ps', seg :: segs' =>
      if String.eqb text seg then match_parts ps' segs' else None
  | Dynamic conv name :: ps', seg :: segs' =>
      match conv seg with
      | Some v => option_map (cons (name, v)) (match_parts ps' segs')
      | None => None
      end
  | _, _ => None
  end.

Fixpoint match_rules (rules : list Rule) (segs : list string)
  : option (string * list (string * value)) :=
  match rules with
  | [] => None
  | r :: rules' =>
      match match_parts (parts r) segs with
      | Some kwargs => Some (endpoint r, kwargs)
      | None => match_rules rules' segs
      end
  end.

Definition NotFound : exn := HTTPException 404.

(** [MapAdapter.match]: the endpoint and the view arguments of the first
    rule that matches, [NotFound] when none does. *)
Definition url_match (rules : list Rule) (path : string)
  : Py (string * list (string * value)) :=
  match match_rules rules (split "/" path) with
  | Some m => ret m
  | None => raise NotFound
  end.

End Werkzeug.

(* ================================================================== *)
(** * The application object *)
(* ================================================================== *)

Module Flask.

Import Werkzeug.

Record App : Type := mkApp {
  import_name : string;
  converters : list (string * converter);
  url_map : list Rule;
  view_functions : list (string * function)
}.

(** [Flask(import_name)]: no rule and no view function yet; the converter
    table is the one of the routing layer. *)
Definition Flask_with (converters : list (string * converter))
  (import_name : string) : App :=
  mkApp import_name converters [] [].

Definition Flask : string -> App := Flask_with DEFAULT_CONVERTERS.

(** The decorator [@app.route(rule)] applied to [f]: the endpoint is the
    function's name; registering a second function under an endpoint is
    an [AssertionError]. *)
Definition route (app : App) (rule : string) (f : function) : Py App :=
  r <- compile_rule (converters app) rule (fn_name f) ;;
  match lookup (fn_name f) (view_functions app) with
  | Some _ => raise AssertionError
  | None =>
      ret (mkApp (import_name app) (converters app)
             (url_map app ++ [r])
             (view_functions app ++ [(fn_name f, f)]))
  end.

Inductive response : Type :=
| Response (status : nat) (data : string)
| ErrorPage (status : nat).


(** The view function of the matched rule, called with the values of the
    rule's variables. *)
Definition dispatch_request (app : App) (path : string) : Py value :=
  m <- url_match (url_map app) path ;;
  match lookup (fst m) (view_functions app) with
  | Some f => call f (snd m)
  | None => raise LookupError
  end.

(** A view may return a string, which becomes the body of a 200 response;
    [None] and integers are refused. *)
Definition make_response (rv : value) : Py response :=
  match rv with
  | PyStr s => ret (Response 200 s)
  | _ => raise TypeError
  end.

(** An HTTP exception becomes the framework's page for its code, any other
    exception the page for 500. *)
Definition handle_user_exception (e : exn) : Py response :=
  match e with
  | HTTPException code => ret (ErrorPage code)
  | _ => ret (ErrorPage 500)
  end.

Definition full_dispatch_request (app : App) (path : string) : Py response :=
  try_except
    (rv <- dispatch_request app path ;; make_response rv)
    handle_user_exception.

End Flask.

(* ================================================================== *)
(** * The program: [app/__init__.py] *)
(* ================================================================== *)

Module App.

Import Werkzeug Flask.

Definition __name__ : string := "app".

(** [def index(): return 'Hello Flask!'] *)
Definition index : function :=
  def "index" [] (fun _ => ret (PyStr "Hello Flask!")).

(** [def add(num1, num2): return f"{num1} + {num2} = {num1 + num2 + 1}"] *)
Definition add : function :=
  def "add" ["num1"; "num2"] (fun args =>
    match args with
    | [num1; num2] =>
        t <- py_add num1 num2 ;;
        s <- py_add t (PyInt 1) ;;
        ret (PyStr (format num1 ++ " + " ++ format num2 ++ " = " ++ format s))
    | _ => raise TypeError
    end).

Definition create_app (config : value) : Py App :=
  let app := Flask __name__ in
  app <- route app "/" index ;;
  app <- route app "/add/<int:num1>/<int:num2>" add ;;
  ret app.

(** [create_app] on a framework whose converter table is [converters]
    instead of Werkzeug's own. *)
Definition create_app_with (converters : list (string * converter))
  (config : value) : Py App :=
  let app := Flask_with converters __name__ in
  app <- route app "/" index ;;
  app <- route app "/add/<int:num1>/<int:num2>" add ;;
  ret app.

(** A GET request for [path] to the application [create_app(config)]. *)
Definition GET (config : value) (path : string) : Py response :=
  app <- create_app config ;;
  full_dispatch_request app path.

(** The application serving the requests of [paths] one after the other. *)
Fixpoint serve (app : App) (paths : list string) : Py (list response) :=
  match paths with
  | [] => ret []
  | path :: paths' =>
      r <- full_dispatch_request app path ;;
      rs <- serve app paths' ;;
      ret (r :: rs)
  end.

(** The same request to the application [create_app_with] builds. *)
Definition GET_with (converters : list (string * converter))
  (config : value) (path : string) : Py response :=
  app <- create_app_with converters config ;;
  full_dispatch_request app path.

(** Where the application sends a GET request for [path]: the endpoint and
    the arguments its view function is about to be called with.  A view is
    invoked only when this returns. *)
Definition routed (config : value) (path : string)
  : Py (string * list (string * value)) :=
  app <- create_app config ;;
  url_match (url_map app) path.

(** The response to [path] when the state is empty. *)
Definition answer (app : App) (path : string) : response :=
  match fst (full_dispatch_request app path []) with
  | Return r => r
  | Raise _ => ErrorPage 500
  end.

(** The URL of the add route for two path segments. *)
Definition add_url (x y : string) : string := "/add/" ++ x ++ "/" ++ y.

(** The two rules as [route] compiles them, the second for a given [int]
    converter. *)
Definition index_rule : Rule :=
  mkRule "/" [Static ""; Static ""] "index".

Definition add_rule_with (conv : converter) : Rule :=
  mkRule "/add/<int:num1>/<int:num2>"
    [Static ""; Static "add"; Dynamic conv "num1"; Dynamic conv "num2"]
    "add".

Definition add_rule : Rule := add_rule_with (IntegerConverter false).

(** The application the program builds: the two rules and the two view
    functions, in the order of the source. *)
Definition rules_with (conv : converter) : list Rule :=
  [index_rule; add_rule_with conv].

Definition program_with (converters : list (string * converter))
  (conv : converter) : App :=
  mkApp __name__ converters
    (rules_with conv)
    [("index", index); ("add", add)].

Definition program : App :=
  program_with DEFAULT_CONVERTERS (IntegerConverter false).

(** Does the character occur in the string? *)
Fixpoint occurs (c : ascii) (s : string) : bool :=
  match s with
  | EmptyString => false
  | String c' s' => Ascii.eqb c' c || occurs c s'
  end.

(** The characters [int_of_digits] accepts. *)
Definition is_digit (c : ascii) : bool :=
  match uint_of_char c (Some Decimal.Nil) with
  | Some _ => true
  | None => false
  end.

(** A path segment: a string without a slash. *)
Definition segment (s : string) : Prop := occurs "/" s = false.


End App.

Import Werkzeug Flask App.

(** [sep.join(pieces)], to write a path from its segments. *)
Fixpoint join (sep : ascii) (pieces : list string) : string :=
  match pieces with
  | [] => EmptyString
  | [s] => s
  | s :: pieces' => s ++ String sep (join sep pieces')
  end.

(** The path [/add/x1/.../xn] for the operands [x1], ..., [xn]. *)
Definition add_path (operands : list string) : string :=
  join "/" ("" :: "add" :: operands).



(** Every segment is written, and has no slash in it. *)
Fixpoint operands_ok (operands : list string) : bool :=
  match operands with
  | [] => true
  | x :: operands' =>
      negb (String.eqb x "") && negb (occurs "/" x) && operands_ok operands'
  end.

(* ================================================================== *)
(** * Strings: splitting and decimal numerals *)
(* ================================================================== *)

Section Strings.

Variable sep : ascii.

Lemma split_nonempty (s : string) : split sep s <> [].
Proof.
  induction s as [|c s IH]; simpl; [discriminate|].
  destruct (Ascii.eqb c sep); [discriminate|].
  destruct (split sep s); [contradiction|discriminate].
Qed.

Lemma split_without_sep (s : string) :
  occurs sep s = false -> split sep s = [s].
Proof.
  induction s as [|c s IH]; simpl; intros H; [reflexivity|].
  apply orb_false_iff in H as [Hc Hs].
  rewrite Hc, (IH Hs). reflexivity.
Qed.

Lemma split_app (a b : string) :
  split sep (a ++ String sep b) = (split sep a ++ split sep b)%list.
Proof.
  induction a as [|c a IH]; simpl.
  - rewrite Ascii.eqb_refl. reflexivity.
  - destruct (Ascii.eqb c sep); rewrite IH; [reflexivity|].
    pose proof (split_nonempty a) as Hne.
    destruct (split sep a) as [|h t]; [contradiction|reflexivity].
Qed.

(** A string that splits into one piece is that piece and has no
    separator. *)
Lemma split_singleton (s x : string) :
  split sep s = [x] -> s = x /\ occurs sep s = false.
Proof.
  revert x. induction s as [|c s IH]; simpl; intros x H.
  - injection H as <-. split; reflexivity.
  - destruct (Ascii.eqb c sep) eqn:Hc.
    + injection H as _ H. destruct (split_nonempty _ H).
    + destruct (split sep s) as [|h t] eqn:Hs.
      * destruct (split_nonempty s Hs).
      * injection H as <- ->.
        destruct (IH h eq_refl) as [-> Ho]. rewrite Ho. split; reflexivity.
Qed.

End Strings.

Section Numerals.

Lemma uint_of_char_digit (c : ascii) (d d' : Decimal.uint) :
  uint_of_char c (Some d) = Some d' -> is_digit c = true.
Proof.
  intros H. apply uint_of_char_spec in H.
  repeat (destruct H as [[-> _]|H]; [reflexivity|]).
  destruct H as [-> _]. reflexivity.
Qed.

Lemma not_digit_neq (c k : ascii) :
  is_digit c = false -> is_digit k = true -> Ascii.eqb k c = false.
Proof.
  intros Hc Hk. destruct (Ascii.eqb_spec k c) as [->|]; [|reflexivity].
  congruence.
Qed.

Lemma uint_of_string_digits (s : string) (d : Decimal.uint) :
  NilEmpty.uint_of_string s = Some d ->
  forall c, is_digit c = false -> occurs c s = false.
Proof.
  revert d. induction s as [|a s IH]; simpl; intros d H c Hc; [reflexivity|].
  destruct (NilEmpty.uint_of_string s) as [u|] eqn:Hs; [|discriminate].
  rewrite (IH u eq_refl c Hc), orb_false_r.
  apply not_digit_neq; [assumption|].
  exact (uint_of_char_digit _ _ _ H).
Qed.

Lemma string_of_uint_digits (d : Decimal.uint) (c : ascii) :
  is_digit c = false -> occurs c (NilEmpty.string_of_uint d) = false.
Proof.
  intros Hc.
  induction d; cbn [NilEmpty.string_of_uint occurs]; [reflexivity|..];
    rewrite IHd, orb_false_r; apply not_digit_neq; auto.
Qed.

Lemma int_of_digits_occurs (s : string) (n : Z) (c : ascii) :
  int_of_digits s = Some n -> is_digit c = false -> occurs c s = false.
Proof.
  unfold int_of_digits, NilZero.uint_of_string.
  destruct s as [|a s]; [discriminate|].
  destruct (NilEmpty.uint_of_string (String a s)) as [u|] eqn:Hu;
    [|discriminate].
  intros _. exact (uint_of_string_digits _ _ Hu c).
Qed.

Lemma int_of_digits_nonneg (s : string) (n : Z) :
  int_of_digits s = Some n -> 0 <= n.
Proof.
  unfold int_of_digits.
  destruct (NilZero.uint_of_string s) as [u|]; [|discriminate].
  intros [= <-]. unfold Z.of_uint. apply N2Z.is_nonneg.
Qed.


(** [str] only writes digits and the minus sign. *)
Lemma str_occurs (n : Z) (c : ascii) :
  is_digit c = false -> Ascii.eqb "-" c = false -> occurs c (str n) = false.
Proof.
  intros Hc Hm. unfold str.
  assert (Hu : forall d, occurs c (NilZero.string_of_uint d) = false).
  { intros d. destruct d; try exact (string_of_uint_digits _ c Hc).
    cbn [NilZero.string_of_uint occurs].
    rewrite orb_false_r. apply not_digit_neq; auto. }
  destruct (Z.to_int n); cbn [NilZero.string_of_int occurs]; [apply Hu|].
  rewrite Hm. apply Hu.
Qed.

Lemma str_inj (a b : Z) : str a = str b -> a = b.
Proof.
  assert (Hback : forall n,
             NilZero.int_of_string (str n) = Some (Z.to_int n)).
  { intros n. unfold str. apply NilZero.isi.
    - destruct n; simpl; try discriminate.
      intros [= H]. exact (DecimalPos.Unsigned.to_uint_nonnil _ H).
    - destruct n; simpl; try discriminate.
      intros [= H]. exact (DecimalPos.Unsigned.to_uint_nonnil _ H). }
  intros H. apply DecimalZ.to_int_inj.
  pose proof (Hback a) as Ha. rewrite H, Hback in Ha. congruence.
Qed.

(** Two strings that agree up to a separator neither contains. *)
Lemma app_sep_inj (c : ascii) (s1 s2 r1 r2 : string) :
  occurs c s1 = false -> occurs c s2 = false ->
  s1 ++ String c r1 = s2 ++ String c r2 -> s1 = s2.
Proof.
  revert s2. induction s1 as [|a s1 IH]; intros [|b s2]; simpl;
    intros H1 H2 E.
  - reflexivity.
  - injection E as E _. subst b. rewrite Ascii.eqb_refl in H2. discriminate.
  - injection E as E _. subst a. rewrite Ascii.eqb_refl in H1. discriminate.
  - injection E as -> E.
    apply orb_false_iff in H1 as [_ H1]. apply orb_false_iff in H2 as [_ H2].
    f_equal. exact (IH s2 H1 H2 E).
Qed.

End Numerals.

(* ================================================================== *)
(** * The int converter *)
(* ================================================================== *)

Section Converter.

Lemma int_of_digits_minus (s : string) : int_of_digits (String "-" s) = None.
Proof.
  unfold int_of_digits, NilZero.uint_of_string.
  cbn [NilEmpty.uint_of_string].
  destruct (NilEmpty.uint_of_string s); reflexivity.
Qed.

(** Unsigned, the converter is [int] on strings of digits and nothing
    else. *)
Lemma IntegerConverter_unsigned (seg : string) :
  IntegerConverter false seg = option_map PyInt (int_of_digits seg).
Proof.
  destruct seg as [|c s]; [reflexivity|].
  destruct (Ascii.eqb_spec c "-") as [->|Hc].
  - rewrite int_of_digits_minus. reflexivity.
  - destruct c as [[|] [|] [|] [|] [|] [|] [|] [|]];
      try reflexivity; contradiction Hc; reflexivity.
Qed.

Lemma IntegerConverter_inv (seg : string) (v : value) :
  IntegerConverter false seg = Some v ->
  exists n, v = PyInt n /\ 0 <= n /\ int_of_digits seg = Some n.
Proof.
  rewrite IntegerConverter_unsigned.
  destruct (int_of_digits seg) as [n|] eqn:Hn; [|discriminate].
  intros [= <-]. exists n. repeat split.
  exact (int_of_digits_nonneg _ _ Hn).
Qed.

Lemma IntegerConverter_segment (seg : string) (v : value) :
  IntegerConverter false seg = Some v -> segment seg.
Proof.
  intros H. apply IntegerConverter_inv in H as (n & _ & _ & Hn).
  exact (int_of_digits_occurs _ _ "/" Hn eq_refl).
Qed.



End Converter.

(* ================================================================== *)
(** * Routing in the application *)
(* ================================================================== *)

Section Routing.

Variable conv : converter.

Lemma match_index : match_rules (rules_with conv) [""; ""] = Some ("index", []).
Proof. reflexivity. Qed.

Lemma match_add (x y : string) (a b : value) :
  conv x = Some a -> conv y = Some b ->
  match_rules (rules_with conv) [""; "add"; x; y]
  = Some ("add", [("num1", a); ("num2", b)]).
Proof.
  intros Hx Hy. unfold rules_with, match_rules, add_rule_with, index_rule.
  cbn. rewrite Hx, Hy. reflexivity.
Qed.

Lemma match_add_fail (x y : string) :
  conv x = None \/ conv y = None ->
  match_rules (rules_with conv) [""; "add"; x; y] = None.
Proof.
  intros H. unfold rules_with, match_rules, add_rule_with, index_rule. cbn.
  destruct (conv x); [|reflexivity].
  destruct H as [H|H]; [discriminate|]. rewrite H. reflexivity.
Qed.

(** The only two ways a list of segments is matched. *)
Lemma match_rules_inv (segs : list string)
  (m : string * list (string * value)) :
  match_rules (rules_with conv) segs = Some m ->
  (segs = [""; ""] /\ m = ("index", []))
  \/ (exists x y a b,
        segs = [""; "add"; x; y] /\ conv x = Some a /\ conv y = Some b
        /\ m = ("add", [("num1", a); ("num2", b)])).
Proof.
  unfold rules_with, match_rules, add_rule_with, index_rule.
  cbn [parts endpoint match_parts].
  destruct segs as [|s0 segs]; [discriminate|].
  destruct (String.eqb_spec "" s0) as [<-|]; [|discriminate].
  destruct segs as [|s1 segs]; [discriminate|].
  destruct (String.eqb_spec "" s1) as [<-|Hs1].
  - destruct segs as [|s2 segs].
    + intros [= <-]. left. split; reflexivity.
    + discriminate.
  - destruct (String.eqb_spec "add" s1) as [<-|]; [|discriminate].
    destruct segs as [|x [|y [|z segs]]]; try discriminate.
    + destruct (conv x); discriminate.
    + destruct (conv x) as [a|] eqn:Hx; [|discriminate].
      destruct (conv y) as [b|] eqn:Hy; [|discriminate].
      intros [= <-]. right. exists x, y, a, b. repeat split; assumption.
    + destruct (conv x); [|discriminate].
      destruct (conv y); discriminate.
Qed.

End Routing.

(* ================================================================== *)
(** * Building the application and answering a request *)
(* ================================================================== *)

Section Dispatch.

Variable converters : list (string * converter).
Variable conv : converter.
Hypothesis int_is_conv : lookup "int" converters = Some conv.

Lemma create_app_with_returns (config : value) (g : globals) :
  create_app_with converters config g
  = (Return (program_with converters conv), g).
Proof.
  unfold create_app_with, Flask_with, route, bind, compile_rule.
  cbn. rewrite int_is_conv. reflexivity.
Qed.

Lemma url_match_found (path : string) (g : globals)
  (m : string * list (string * value)) :
  match_rules (rules_with conv) (split "/" path) = Some m ->
  url_match (url_map (program_with converters conv)) path g = (Return m, g).
Proof.
  intros H. unfold url_match. cbn [url_map program_with]. rewrite H.
  reflexivity.
Qed.

Lemma url_match_not_found (path : string) (g : globals) :
  match_rules (rules_with conv) (split "/" path) = None ->
  url_match (url_map (program_with converters conv)) path g = (Raise NotFound, g).
Proof.
  intros H. unfold url_match. cbn [url_map program_with]. rewrite H.
  reflexivity.
Qed.

Lemma dispatch_not_found (path : string) (g : globals) :
  match_rules (rules_with conv) (split "/" path) = None ->
  full_dispatch_request (program_with converters conv) path g = (Return (ErrorPage 404), g).
Proof.
  intros H.
  cbv beta delta [full_dispatch_request try_except bind dispatch_request].
  rewrite (url_match_not_found _ _ H). reflexivity.
Qed.

Lemma dispatch_index (path : string) (g : globals) :
  split "/" path = [""; ""] ->
  full_dispatch_request (program_with converters conv) path g
  = (Return (Response 200 "Hello Flask!"), g).
Proof.
  intros H.
  cbv beta delta [full_dispatch_request try_except bind dispatch_request].
  rewrite (url_match_found path g ("index", [])).
  - reflexivity.
  - rewrite H. apply match_index.
Qed.

Lemma dispatch_add (path x y : string) (a b : Z) (g : globals) :
  split "/" path = [""; "add"; x; y] ->
  conv x = Some (PyInt a) -> conv y = Some (PyInt b) ->
  full_dispatch_request (program_with converters conv) path g
  = (Return (Response 200
               (str a ++ " + " ++ str b ++ " = " ++ str (a + b + 1))), g).
Proof.
  intros H Hx Hy.
  cbv beta delta [full_dispatch_request try_except bind dispatch_request].
  rewrite (url_match_found path g
             ("add", [("num1", PyInt a); ("num2", PyInt b)])).
  - reflexivity.
  - rewrite H. apply match_add; assumption.
Qed.

End Dispatch.

Lemma create_app_returns (config : value) (g : globals) :
  create_app config g = (Return program, g).
Proof.
  exact (create_app_with_returns DEFAULT_CONVERTERS (IntegerConverter false)
           eq_refl config g).
Qed.

Lemma split_add_url_gen (x y : string) :
  split "/" (add_url x y)
  = ([""; "add"] ++ split "/" x ++ split "/" y)%list.
Proof.
  change (add_url x y)
    with ("" ++ String "/" ("add" ++ String "/" (x ++ String "/" y))).
  rewrite !split_app. reflexivity.
Qed.


Lemma GET_program (config : value) (path : string) (g : globals) :
  GET config path g = full_dispatch_request program path g.
Proof.
  cbv beta delta [GET bind]. rewrite create_app_returns. reflexivity.
Qed.

Lemma routed_program (config : value) (path : string) (g : globals) :
  routed config path g = url_match (url_map program) path g.
Proof.
  cbv beta delta [routed bind]. rewrite create_app_returns. reflexivity.
Qed.

Lemma program_add (path x y : string) (a b : Z) (g : globals) :
  split "/" path = [""; "add"; x; y] ->
  IntegerConverter false x = Some (PyInt a) ->
  IntegerConverter false y = Some (PyInt b) ->
  full_dispatch_request program path g
  = (Return (Response 200
               (str a ++ " + " ++ str b ++ " = " ++ str (a + b + 1))), g).
Proof. exact (dispatch_add DEFAULT_CONVERTERS _ path x y a b g). Qed.

Lemma program_index (path : string) (g : globals) :
  split "/" path = [""; ""] ->
  full_dispatch_request program path g
  = (Return (Response 200 "Hello Flask!"), g).
Proof. exact (dispatch_index DEFAULT_CONVERTERS _ path g). Qed.

Lemma program_not_found (path : string) (g : globals) :
  match_rules (rules_with (IntegerConverter false)) (split "/" path) = None ->
  url_match (url_map program) path g = (Raise NotFound, g)
  /\ full_dispatch_request program path g = (Return (ErrorPage 404), g).
Proof.
  intros H. split.
  - exact (url_match_not_found DEFAULT_CONVERTERS _ path g H).
  - exact (dispatch_not_found DEFAULT_CONVERTERS _ path g H).
Qed.

(** What the application does with a request, by the shape of its path. *)
Lemma dispatch_cases (path : string) (g : globals) :
  (split "/" path = [""; ""]
   /\ url_match (url_map program) path g = (Return ("index", []), g)
   /\ full_dispatch_request program path g
      = (Return (Response 200 "Hello Flask!"), g))
  \/ (exists x y a b,
        split "/" path = [""; "add"; x; y]
        /\ IntegerConverter false x = Some (PyInt a)
        /\ IntegerConverter false y = Some (PyInt b)
        /\ 0 <= a /\ 0 <= b
        /\ url_match (url_map program) path g
           = (Return ("add", [("num1", PyInt a); ("num2", PyInt b)]), g)
        /\ full_dispatch_request program path g
           = (Return (Response 200
                        (str a ++ " + " ++ str b ++ " = "
                           ++ str (a + b + 1))), g))
  \/ (match_rules (rules_with (IntegerConverter false)) (split "/" path)
      = None
      /\ url_match (url_map program) path g = (Raise NotFound, g)
      /\ full_dispatch_request program path g = (Return (ErrorPage 404), g)).
Proof.
  destruct (match_rules (rules_with (IntegerConverter false))
              (split "/" path)) as [m|] eqn:Hm.
  - pose proof (url_match_found DEFAULT_CONVERTERS _ path g m Hm) as Hu.
    apply match_rules_inv in Hm
      as [[Hs ->]|(x & y & va & vb & Hs & Hx & Hy & ->)].
    + left. repeat split; [assumption..|].
      exact (program_index path g Hs).
    + right; left.
      destruct (IntegerConverter_inv _ _ Hx) as (a & -> & Ha & _).
      destruct (IntegerConverter_inv _ _ Hy) as (b & -> & Hb & _).
      exists x, y, a, b. repeat split; [assumption..|].
      exact (program_add path x y a b g Hs Hx Hy).
  - right; right. split; [reflexivity|]. exact (program_not_found path g Hm).
Qed.

(** The response is a function of the path alone and the state is left as
    it was. *)
Lemma dispatch_pure (path : string) (g : globals) :
  full_dispatch_request program path g = (Return (answer program path), g).
Proof.
  unfold answer.
  destruct (dispatch_cases path [])
    as [(Hs & _ & E0)|[(x & y & a & b & Hs & Hx & Hy & _ & _ & _ & E0)
                      |(Hm & _ & E0)]]; rewrite E0; cbn [fst].
  - exact (program_index path g Hs).
  - exact (program_add path x y a b g Hs Hx Hy).
  - exact (proj2 (program_not_found path g Hm)).
Qed.

(** Neither view function touches the state, whatever it is called
    with. *)
Lemma index_pure (kwargs : list (string * value)) (g : globals) :
  call index kwargs g = (fst (call index kwargs []), g).
Proof.
  unfold call. cbn [fn_params fn_body index].
  destruct (forallb _ kwargs); reflexivity.
Qed.

Lemma add_pure (kwargs : list (string * value)) (g : globals) :
  call add kwargs g = (fst (call add kwargs []), g).
Proof.
  unfold call. cbn [fn_params fn_body add].
  destruct (forallb _ kwargs); [|reflexivity].
  destruct (bind_params _ kwargs) as [[|num1 [|num2 [|? ?]]]|];
    try reflexivity.
  destruct num1, num2; reflexivity.
Qed.

(** A request on the add route with a segment the converter refuses
    matches no rule. *)
Lemma add_url_refused (x y : string) :
  IntegerConverter false x = None \/ IntegerConverter false y = None ->
  match_rules (rules_with (IntegerConverter false)) (split "/" (add_url x y))
  = None.
Proof.
  intros Hbad.
  destruct (match_rules (rules_with (IntegerConverter false))
              (split "/" (add_url x y))) as [m|] eqn:Hm; [|reflexivity].
  exfalso.
  apply match_rules_inv in Hm
    as [[Hs _]|(x' & y' & va & vb & Hs & Hx & Hy & _)];
    rewrite split_add_url_gen in Hs; cbn [List.app] in Hs;
    [discriminate Hs|].
  injection Hs as Hs.
  assert (Hl := f_equal (@List.length string) Hs).
  rewrite List.length_app in Hl.
  destruct (split "/" x) as [|hx tx] eqn:Ex;
    [destruct (split_nonempty _ _ Ex)|].
  destruct (split "/" y) as [|hy ty] eqn:Ey;
    [destruct (split_nonempty _ _ Ey)|].
  cbn [List.length] in Hl.
  destruct tx as [|? tx]; [|cbn [List.length] in Hl; lia].
  destruct ty as [|? ty]; [|cbn [List.length] in Hl; lia].
  injection Hs as -> ->.
  apply split_singleton in Ex as [-> _].
  apply split_singleton in Ey as [-> _].
  destruct Hbad; congruence.
Qed.

(** The view functions do raise on arguments that are not integers: the
    results below about integers are not true of every value. *)
Example add_raises_on_text (g : globals) :
  call add [("num1", PyStr "2"); ("num2", PyInt 3)] g = (Raise TypeError, g).
Proof. reflexivity. Qed.

Example add_raises_on_two_texts (g : globals) :
  call add [("num1", PyStr "2"); ("num2", PyStr "3")] g = (Raise TypeError, g).
Proof. reflexivity. Qed.

Example add_needs_both_arguments (g : globals) :
  call add [("num1", PyInt 2)] g = (Raise TypeError, g).
Proof. reflexivity. Qed.

(* ================================================================== *)
(** * The claims *)
(* ================================================================== *)



(** C2.  Every GET request for the path [/] is answered with status 200
    and the body [Hello Flask!]; nothing is raised and the state is left
    as it was. *)
Theorem C2_index_returns_hello (config : value) (g : globals) :
  GET config "/" g = (Return (Response 200 "Hello Flask!"), g).
Proof. rewrite GET_program. reflexivity. Qed.




(** C4.  On a framework whose [int] converter is [conv], a converter that
    reads [5] as 5 and either reads [-1] as -1 or refuses it, the GET
    request [/add/-1/5] is answered with status 200 and body [-1 + 5 = 5]
    when [conv] accepts [-1], and with status 404 when it refuses it;
    exactly one of the two answers is given.  With Werkzeug's own table,
    whose [int] is unsigned, the answer is 404. *)
Theorem C4_negative_operand
  (converters : list (string * converter)) (conv : converter)
  (config : value) (g : globals)
  (Hint : lookup "int" converters = Some conv)
  (H5 : conv "5" = Some (PyInt 5))
  (Hm : conv "-1" = Some (PyInt (-1)) \/ conv "-1" = None) :
  let reply := GET_with converters config "/add/-1/5" g in
  let accepted := (Return (Response 200 "-1 + 5 = 5"), g) in
  let refused := (Return (ErrorPage 404), g) in
  (conv "-1" = Some (PyInt (-1)) -> reply = accepted)
  /\ (conv "-1" = None -> reply = refused)
  /\ (reply = accepted \/ reply = refused)
  /\ ~ (reply = accepted /\ reply = refused)
  /\ GET config "/add/-1/5" g = refused.
Proof.
  intros reply accepted refused.
  assert (E : reply
              = full_dispatch_request (program_with converters conv)
                  "/add/-1/5" g).
  { unfold reply. cbv beta delta [GET_with bind].
    rewrite (create_app_with_returns converters conv Hint). reflexivity. }
  assert (Ha : conv "-1" = Some (PyInt (-1)) -> reply = accepted).
  { intros H. rewrite E.
    exact (dispatch_add converters conv "/add/-1/5" "-1" "5" (-1) 5 g
             eq_refl H H5). }
  assert (Hr : conv "-1" = None -> reply = refused).
  { intros H. rewrite E. apply dispatch_not_found.
    apply (match_add_fail conv "-1" "5"). left. exact H. }
  split; [exact Ha|]. split; [exact Hr|]. split; [|split].
  - destruct Hm as [H|H]; [left; exact (Ha H)|right; exact (Hr H)].
  - intros [H1 H2]. rewrite H1 in H2. discriminate H2.
  - unfold refused. rewrite GET_program. reflexivity.
Qed.

Lemma C4_negative_operand_witness :
  (lookup "int" [("int", IntegerConverter true)]
   = Some (IntegerConverter true)
   /\ IntegerConverter true "5" = Some (PyInt 5)
   /\ (IntegerConverter true "-1" = Some (PyInt (-1))
       \/ IntegerConverter true "-1" = None))
  /\ GET_with [("int", IntegerConverter true)] PyNone "/add/-1/5" []
     = (Return (Response 200 "-1 + 5 = 5"), []).
Proof.
  split; [split; [reflexivity|split; [reflexivity|left; reflexivity]]|].
  exact (proj1 (C4_negative_operand [("int", IntegerConverter true)]
                  (IntegerConverter true) PyNone []
                  eq_refl eq_refl (or_introl eq_refl)) eq_refl).
Defined.

(** C5.  Both view functions, whatever they are called with, give a
    result that does not depend on the state and leave the state as it
    was.  The application [create_app] returns answers every request with
    a response that is a function of the request alone: whatever the
    state, a request for [path] is answered [answer app path] and the
    state is left as it was; and a sequence of requests, in any order and
    with any repetitions, is answered request by request with the same
    function, the state at the end being the state at the start. *)
Theorem C5_requests_are_stateless (config : value) (g : globals) :
  (forall (kwargs : list (string * value)) (g1 : globals),
      call index kwargs g1 = (fst (call index kwargs []), g1)
      /\ call add kwargs g1 = (fst (call add kwargs []), g1))
  /\ exists app,
      create_app config g = (Return app, g)
      /\ (forall (path : string) (g1 : globals),
            full_dispatch_request app path g1
            = (Return (answer app path), g1))
      /\ (forall (paths : list string) (g1 : globals),
            serve app paths g1 = (Return (map (answer app) paths), g1)).
Proof.
  split; [intros kwargs g1; split; [apply index_pure|apply add_pure]|].
  exists program. split; [apply create_app_returns|]. split.
  - exact dispatch_pure.
  - induction paths as [|path paths IH]; intros g1; [reflexivity|].
    cbn [serve map]. cbv beta delta [bind].
    rewrite dispatch_pure, IH. reflexivity.
Qed.





(** C9.  [create_app] does not read [config]: for any two values of it,
    the application returned is the same (the same rules and the same view
    functions), and so is the response to every request. *)
Theorem C9_config_is_not_read (config1 config2 : value) (g : globals) :
  create_app config1 g = create_app config2 g
  /\ (forall path : string, GET config1 path g = GET config2 path g)
  /\ (forall path : string, routed config1 path g = routed config2 path g).
Proof. repeat split. Qed.



(* ================================================================== *)
(** * Further properties of the program *)
(* ================================================================== *)

Section MoreStrings.

Variable sep : ascii.



(** Joining pieces that have no separator in them and splitting the
    result gives the pieces back. *)
Lemma split_join (pieces : list string) :
  pieces <> [] ->
  forallb (fun s => negb (occurs sep s)) pieces = true ->
  split sep (join sep pieces) = pieces.
Proof.
  induction pieces as [|s pieces IH]; [contradiction|]. intros _ H.
  cbn [forallb] in H. apply andb_true_iff in H as [Hs H].
  apply negb_true_iff in Hs.
  destruct pieces as [|s' pieces].
  - apply split_without_sep. exact Hs.
  - change (join sep (s :: s' :: pieces))
      with (s ++ String sep (join sep (s' :: pieces))).
    rewrite split_app, (split_without_sep _ _ Hs), IH;
      [reflexivity|discriminate|exact H].
Qed.

Lemma occurs_app (c : ascii) (s1 s2 : string) :
  occurs c (s1 ++ s2) = occurs c s1 || occurs c s2.
Proof.
  induction s1 as [|a s1 IH]; [reflexivity|].
  cbn [String.append occurs]. rewrite IH, orb_assoc. reflexivity.
Qed.

Lemma append_inv_head (s r1 r2 : string) : s ++ r1 = s ++ r2 -> r1 = r2.
Proof.
  induction s as [|a s IH]; cbn [String.append]; intros E; [exact E|].
  injection E as E. exact (IH E).
Qed.

End MoreStrings.



Lemma add_on_integers (a b : Z) (g : globals) :
  call add [("num1", PyInt a); ("num2", PyInt b)] g
  = (Return (PyStr (str a ++ " + " ++ str b ++ " = " ++ str (a + b + 1))), g).
Proof. reflexivity. Qed.

Lemma operands_ok_no_slash (operands : list string) :
  operands_ok operands = true ->
  forallb (fun s => negb (occurs "/" s)) operands = true.
Proof.
  induction operands as [|x operands IH]; [reflexivity|].
  cbn [operands_ok forallb]. intros H.
  apply andb_true_iff in H as [H Hrest].
  apply andb_true_iff in H as [_ Hx].
  rewrite Hx, (IH Hrest). reflexivity.
Qed.

Lemma split_add_path (operands : list string) :
  forallb (fun s => negb (occurs "/" s)) operands = true ->
  split "/" (add_path operands) = "" :: "add" :: operands.
Proof.
  intros H. unfold add_path. apply split_join; [discriminate|].
  cbn [forallb]. rewrite H. reflexivity.
Qed.

(** On the add route, a number of operands other than two matches no
    rule. *)
Lemma add_path_refused (operands : list string) :
  forallb (fun s => negb (occurs "/" s)) operands = true ->
  List.length operands <> 2%nat ->
  match_rules (rules_with (IntegerConverter false))
    (split "/" (add_path operands)) = None.
Proof.
  intros Hok Hlen. rewrite (split_add_path _ Hok).
  destruct (match_rules (rules_with (IntegerConverter false))
              ("" :: "add" :: operands)) as [m|] eqn:Hm; [|reflexivity].
  exfalso.
  apply match_rules_inv in Hm
    as [[Hs _]|(x & y & va & vb & Hs & _)].
  - discriminate Hs.
  - injection Hs as ->. apply Hlen. reflexivity.
Qed.



Lemma index_match_inv (segs : list string) (kwargs : list (string * value)) :
  match_parts (parts index_rule) segs = Some kwargs -> segs = [""; ""].
Proof.
  cbn [parts index_rule match_parts].
  destruct segs as [|s0 segs]; [discriminate|].
  destruct (String.eqb_spec "" s0) as [<-|]; [|discriminate].
  destruct segs as [|s1 segs]; [discriminate|].
  destruct (String.eqb_spec "" s1) as [<-|]; [|discriminate].
  destruct segs; [reflexivity|discriminate].
Qed.

(** X1.  The text [add] returns for two integers tells which integers
    they were: if the texts for [(a, b)] and for [(c, d)] are the same,
    then [a = c] and [b = d]. *)
Theorem X1_add_body_determines_operands (a b c d : Z) (g g' : globals)
  (H : fst (call add [("num1", PyInt a); ("num2", PyInt b)] g)
       = fst (call add [("num1", PyInt c); ("num2", PyInt d)] g')) :
  a = c /\ b = d.
Proof.
  rewrite !add_on_integers in H. cbn [fst] in H. injection H as E.
  assert (Hac : a = c).
  { apply str_inj.
    apply (app_sep_inj " " (str a) (str c)
             ("+ " ++ str b ++ " = " ++ str (a + b + 1))
             ("+ " ++ str d ++ " = " ++ str (c + d + 1)));
      [apply str_occurs; reflexivity..|exact E]. }
  subst c. split; [reflexivity|].
  apply append_inv_head in E.
  apply (append_inv_head " + ") in E.
  apply str_inj.
  apply (app_sep_inj " " (str b) (str d)
           ("= " ++ str (a + b + 1)) ("= " ++ str (a + d + 1)));
    [apply str_occurs; reflexivity..|exact E].
Qed.

Lemma X1_add_body_determines_operands_witness :
  fst (call add [("num1", PyInt 20); ("num2", PyInt 3)] [])
  = fst (call add [("num1", PyInt 20); ("num2", PyInt 3)] [("k", PyNone)])
  /\ (20 = 20 /\ 3 = 3).
Proof.
  split; [reflexivity|].
  exact (X1_add_body_determines_operands 20 3 20 3 [] [("k", PyNone)]
           eq_refl).
Defined.



(** X3.  The two rules [create_app] registers never match the same path,
    so routing does not depend on the order of the two decorators. *)
Theorem X3_routes_do_not_overlap (path : string) (g : globals) :
  (match_parts (parts index_rule) (split "/" path) = None
   \/ match_parts (parts add_rule) (split "/" path) = None)
  /\ url_match [add_rule; index_rule] path g
     = url_match [index_rule; add_rule] path g.
Proof.
  assert (Hdisj : match_parts (parts index_rule) (split "/" path) = None
                  \/ match_parts (parts add_rule) (split "/" path) = None).
  { destruct (match_parts (parts index_rule) (split "/" path))
      as [kw|] eqn:Hi; [right|left; reflexivity].
    rewrite (index_match_inv _ _ Hi). reflexivity. }
  split; [exact Hdisj|].
  unfold url_match. cbn [match_rules].
  destruct Hdisj as [H|H]; rewrite H.
  - destruct (match_parts (parts add_rule) (split "/" path)); reflexivity.
  - destruct (match_parts (parts index_rule) (split "/" path)); reflexivity.
Qed.

(** X4.  On the add route the number of operands must be two: a path
    [/add/x1/.../xn] of written segments with [n] other than 2 (none, one,
    three or more) invokes no view and is answered 404; and so is
    [/add/x/y/], the path of two operands with a slash after it. *)
Theorem X4_wrong_number_of_operands
  (config : value) (g : globals) (operands : list string)
  (Hok : operands_ok operands = true)
  (Hlen : List.length operands <> 2%nat) :
  routed config (add_path operands) g = (Raise NotFound, g)
  /\ GET config (add_path operands) g = (Return (ErrorPage 404), g)
  /\ (forall x y : string,
        segment x -> segment y ->
        GET config (add_url x (y ++ "/")) g = (Return (ErrorPage 404), g)).
Proof.
  pose proof (add_path_refused operands (operands_ok_no_slash _ Hok) Hlen)
    as Hnone.
  split; [|split].
  - rewrite routed_program. exact (proj1 (program_not_found _ g Hnone)).
  - rewrite GET_program. exact (proj2 (program_not_found _ g Hnone)).
  - intros x y _ _. rewrite GET_program.
    apply program_not_found, add_url_refused. right.
    destruct (IntegerConverter false (y ++ "/")) as [v|] eqn:Hv;
      [|reflexivity].
    apply IntegerConverter_segment in Hv. unfold segment in Hv.
    rewrite occurs_app in Hv. cbn in Hv. rewrite orb_true_r in Hv.
    discriminate Hv.
Qed.

Lemma X4_wrong_number_of_operands_witness :
  (operands_ok ["2"; "3"; "4"] = true
   /\ List.length ["2"; "3"; "4"] <> 2%nat)
  /\ GET PyNone "/add/2/3/4" [] = (Return (ErrorPage 404), []).
Proof.
  assert (Hlen : List.length ["2"; "3"; "4"] <> 2%nat) by (simpl; lia).
  split; [split; [reflexivity|exact Hlen]|].
  exact (proj1 (proj2 (X4_wrong_number_of_operands PyNone []
                         ["2"; "3"; "4"] eq_refl Hlen))).
Defined.






